(** * foundation_time.c: the clock_gettime / clock_getres shim for macOS

    A shallow embedding of [cbits/foundation_time.c] and the properties of
    its two entry points, [foundation_time_clock_getres] and
    [foundation_time_clock_gettime].

    The C functions talk to the Mach kernel and write through a pointer.
    Both effects are made explicit: the kernel is an oracle ([Mach.platform])
    together with the state of the calling task ([Mach.task]), the file's
    static [timebase] lives in [world], and the pointee of the
    [struct timespec *] argument is passed in and handed back.  Integer
    division by zero is undefined in C; it is the one way a call can fail to
    return, and the embedding gives it an outcome of its own.

    The source is read as it is written.  In particular line 31 hands
    [timebase] to [mach_timebase_info] by value, so no call stores anything
    in the static. *)

From Stdlib Require Import ZArith List Sorted Lia.
Import ListNotations.
Local Open Scope Z_scope.

(** ** C integer types (LP64, the ABI of 64-bit macOS) *)

Module CInt.

(** Conversion to [long] (also [time_t]): 64 bits, two's complement. *)
Definition to_long (z : Z) : Z := (z + 2 ^ 63) mod 2 ^ 64 - 2 ^ 63.

Definition is_uint (z : Z) : Prop := 0 <= z < 2 ^ 32.
Definition is_int (z : Z) : Prop := - 2 ^ 31 <= z < 2 ^ 31.
Definition is_long (z : Z) : Prop := - 2 ^ 63 <= z < 2 ^ 63.

(** [a / b] on unsigned operands: truncating, undefined when [b] is 0. *)
Definition udiv (a b : Z) : option Z :=
  if b =? 0 then None else Some (a / b).

End CInt.

(** ** The Mach services the shim calls *)

Module Mach.

(** [mach_timebase_info_data_t]: two [uint32_t] fields. *)
Record mach_timebase_info_data_t : Type :=
  { numer : Z; denom : Z }.

(** [mach_timespec_t]: [unsigned int tv_sec; clock_res_t tv_nsec], the
    latter an [int]. *)
Record mach_timespec_t : Type :=
  { tv_sec : Z; tv_nsec : Z }.

(** The two clock services of [mach/clock_types.h] the file names. *)
Inductive clock_id_t : Type := SYSTEM_CLOCK | CALENDAR_CLOCK.

(** [mach_port_t], the name of a port right; [clock_serv_t] is one. *)
Definition mach_port_t : Type := N.
Definition clock_serv_t : Type := mach_port_t.

(** Calls on the timebase and clock services, as the task issues them. *)
Inductive event : Type :=
| TimebaseInfo
| GetClockService (c : clock_id_t) (p : clock_serv_t)
| ClockGetTime (p : clock_serv_t)
| PortDeallocate (p : clock_serv_t).

(** What the kernel answers.  Readings may change from one service call to
    the next, so they are indexed by the number of calls made before. *)
Record platform : Type :=
  { host_self : mach_port_t;
    task_self : mach_port_t;
    host_clock_port : clock_id_t -> clock_serv_t;
    clock_reading : clock_serv_t -> nat -> mach_timespec_t;
    timebase_reading : nat -> mach_timebase_info_data_t }.

(** The part of the task's state the shim touches: the clock-service
    rights it holds, one entry per reference; the service calls made so
    far, oldest first; and how often it has called [mach_host_self]. *)
Record task : Type :=
  { rights : list clock_serv_t; trace : list event; host_self_calls : nat }.

Definition tick (k : task) : nat := length (trace k).

Definition emit (e : event) (k : task) : task :=
  {| rights := rights k; trace := trace k ++ [e];
     host_self_calls := host_self_calls k |}.

(** Drops one reference to [p], if the task holds one. *)
Fixpoint release (p : clock_serv_t) (l : list clock_serv_t) : list clock_serv_t :=
  match l with
  | [] => []
  | q :: l' => if N.eqb p q then l' else q :: release p l'
  end.

Section Kernel.
Variable P : platform.

(** [mach_timebase_info]: the timebase-info service, which answers with
    a numerator/denominator ratio from ticks to nanoseconds.  The value
    returned here is the service's answer; where it lands is the caller's
    business. *)
Definition mach_timebase_info (k : task) : mach_timebase_info_data_t * task :=
  (timebase_reading P (tick k), emit TimebaseInfo k).

(** [mach_host_self()]: a call that yields the name of the host port. *)
Definition mach_host_self (k : task) : mach_port_t * task :=
  (host_self P,
   {| rights := rights k; trace := trace k;
      host_self_calls := S (host_self_calls k) |}).

(** [mach_task_self()]: the name of the task's own port, read from a
    variable. *)
Definition mach_task_self : mach_port_t := task_self P.

(** [host_get_clock_service(host, c, &cclock)]: the task gains a
    reference to the service's port. *)
Definition host_get_clock_service (host : mach_port_t) (c : clock_id_t) (k : task)
  : clock_serv_t * task :=
  let p := host_clock_port P c in
  (p, {| rights := p :: rights k; trace := trace k ++ [GetClockService c p];
         host_self_calls := host_self_calls k |}).

(** [clock_get_time(cclock, &mts)]. *)
Definition clock_get_time (p : clock_serv_t) (k : task) : mach_timespec_t * task :=
  (clock_reading P p (tick k), emit (ClockGetTime p) k).

(** [mach_port_deallocate(task, cclock)]. *)
Definition mach_port_deallocate (t : mach_port_t) (p : clock_serv_t) (k : task)
  : unit * task :=
  (tt, {| rights := release p (rights k); trace := trace k ++ [PortDeallocate p];
          host_self_calls := host_self_calls k |}).

End Kernel.

End Mach.

(** ** Program state and the monad of the embedding *)

(** [struct timespec]: [time_t tv_sec; long tv_nsec]. *)
Record timespec : Type :=
  { tv_sec : Z; tv_nsec : Z }.

Definition set_tv_sec (ts : timespec) (v : Z) : timespec :=
  {| tv_sec := v; tv_nsec := tv_nsec ts |}.

Definition set_tv_nsec (ts : timespec) (v : Z) : timespec :=
  {| tv_sec := tv_sec ts; tv_nsec := v |}.

(** The file's static [timebase] and the task it runs in. *)
Record world : Type :=
  { timebase : Mach.mach_timebase_info_data_t; task : Mach.task }.

(** [static mach_timebase_info_data_t timebase = {0,0};] in a task that holds
    no clock right and has made no native call. *)
Definition initial_world : world :=
  {| timebase := {| Mach.numer := 0; Mach.denom := 0 |};
     task := {| Mach.rights := []; Mach.trace := []; Mach.host_self_calls := 0 |} |}.

Inductive outcome (A : Type) : Type :=
| Returns (a : A) (w : world)
| Undefined.
Arguments Returns {A} a w.
Arguments Undefined {A}.

Definition M (A : Type) : Type := world -> outcome A.

Definition ret {A} (a : A) : M A := fun w => Returns a w.

Definition bind {A B} (m : M A) (f : A -> M B) : M B :=
  fun w => match m w with
           | Returns a w' => f a w'
           | Undefined => Undefined
           end.

Notation "x <- m ;; k" := (bind m (fun x => k))
  (at level 61, m at next level, right associativity).
Notation "m ;; k" := (bind m (fun _ => k))
  (at level 61, right associativity).

(** A native call: runs on the task, leaves [timebase] alone. *)
Definition native {A} (f : Mach.task -> A * Mach.task) : M A :=
  fun w => let (a, k) := f (task w) in
           Returns a {| timebase := timebase w; task := k |}.

Definition get_timebase : M Mach.mach_timebase_info_data_t :=
  fun w => Returns (timebase w) w.

(** Unsigned division; dividing by zero has no defined outcome. *)
Definition divide (a b : Z) : M Z :=
  fun w => match CInt.udiv a b with
           | Some q => Returns q w
           | None => Undefined
           end.

Definition when (b : bool) (m : M unit) : M unit :=
  if b then m else ret tt.

(** ** The source *)

(** [typedef enum { CLOCK_REALTIME, CLOCK_MONOTONIC,
                    CLOCK_PROCESS_CPUTIME_ID, CLOCK_THREAD_CPUTIME_ID } clockid_t;] *)
Definition CLOCK_REALTIME : Z := 0.
Definition CLOCK_MONOTONIC : Z := 1.
Definition CLOCK_PROCESS_CPUTIME_ID : Z := 2.
Definition CLOCK_THREAD_CPUTIME_ID : Z := 3.

Section Shim.
Variable P : Mach.platform.

(** [mach_timebase_info(timebase)].  The argument is the static itself,
    not its address: the service is asked, its answer goes to the copy the
    call was given, and [timebase] keeps the value it had. *)
Definition query_timebase : M unit :=
  native (Mach.mach_timebase_info P) ;;
  ret tt.

(** [int foundation_time_clock_getres(unsigned int clockid,
                                      struct timespec *timespec)].
    [ts] is the object [timespec] points to on entry; the pair returned is
    the function's value and that object on exit.  The [break] of the
    [CLOCK_MONOTONIC] case leaves the [switch] for the function's last
    statement, [return -1]. *)
Definition foundation_time_clock_getres (clockid : Z) (ts : timespec)
  : M (Z * timespec) :=
  if clockid =? CLOCK_MONOTONIC then
    tb <- get_timebase ;;
    when (Mach.denom tb =? 0) query_timebase ;;
    let ts := set_tv_sec ts 0 in
    tb <- get_timebase ;;
    q <- divide (Mach.numer tb) (Mach.denom tb) ;;
    let ts := set_tv_nsec ts (CInt.to_long q) in
    ret (-1, ts)
  else if clockid =? CLOCK_REALTIME then
    ret (-1, ts)
  else
    ret (-1, ts).

(** [int foundation_time_clock_gettime(unsigned int clockid,
                                       struct timespec *timespec)].
    The cases under [#if 0] are not compiled.  The [default] case is the
    expression statement [-1;], which computes a value and drops it, so
    control reaches [return 0]. *)
Definition foundation_time_clock_gettime (clockid : Z) (ts : timespec)
  : M (Z * timespec) :=
  if clockid =? CLOCK_MONOTONIC then
    host <- native (Mach.mach_host_self P) ;;
    cclock <- native (Mach.host_get_clock_service P host Mach.SYSTEM_CLOCK) ;;
    mts <- native (Mach.clock_get_time P cclock) ;;
    native (Mach.mach_port_deallocate (Mach.mach_task_self P) cclock) ;;
    let ts := set_tv_sec ts (CInt.to_long (Mach.tv_sec mts)) in
    let ts := set_tv_nsec ts (CInt.to_long (Mach.tv_nsec mts)) in
    ret (0, ts)
  else if clockid =? CLOCK_REALTIME then
    host <- native (Mach.mach_host_self P) ;;
    cclock <- native (Mach.host_get_clock_service P host Mach.CALENDAR_CLOCK) ;;
    mts <- native (Mach.clock_get_time P cclock) ;;
    native (Mach.mach_port_deallocate (Mach.mach_task_self P) cclock) ;;
    let ts := set_tv_sec ts (CInt.to_long (Mach.tv_sec mts)) in
    let ts := set_tv_nsec ts (CInt.to_long (Mach.tv_nsec mts)) in
    ret (0, ts)
  else
    let _ := -1 in
    ret (0, ts).

(** A caller's view: a sequence of calls, each with the contents of the
    buffer it passes, run one after the other in the same process. *)
Inductive call : Type :=
| GetRes (clockid : Z) (ts : timespec)
| GetTime (clockid : Z) (ts : timespec).

Definition perform (c : call) : M (Z * timespec) :=
  match c with
  | GetRes clockid ts => foundation_time_clock_getres clockid ts
  | GetTime clockid ts => foundation_time_clock_gettime clockid ts
  end.

Fixpoint run (cs : list call) : M (list (Z * timespec)) :=
  match cs with
  | [] => ret []
  | c :: cs' =>
      r <- perform c ;;
      rs <- run cs' ;;
      ret (r :: rs)
  end.

End Shim.

(** Number of timebase queries among the native calls of a trace. *)
Fixpoint timebase_queries (t : list Mach.event) : nat :=
  match t with
  | [] => 0%nat
  | Mach.TimebaseInfo :: t' => S (timebase_queries t')
  | _ :: t' => timebase_queries t'
  end.

(** The results of the [getResolution(Monotonic)] calls of a run. *)
Fixpoint monotonic_resolutions (cs : list call) (rs : list (Z * timespec))
  : list (Z * timespec) :=
  match cs, rs with
  | GetRes clockid _ :: cs', r :: rs' =>
      if clockid =? CLOCK_MONOTONIC
      then r :: monotonic_resolutions cs' rs'
      else monotonic_resolutions cs' rs'
  | _ :: cs', _ :: rs' => monotonic_resolutions cs' rs'
  | _, _ => []
  end.

(** A platform with constant readings, for concrete runs. *)
Definition steady (numer denom sec nsec : Z) : Mach.platform :=
  {| Mach.host_self := 3%N;
     Mach.task_self := 5%N;
     Mach.host_clock_port := fun c => match c with
                                      | Mach.SYSTEM_CLOCK => 7%N
                                      | Mach.CALENDAR_CLOCK => 9%N
                                      end;
     Mach.clock_reading := fun p _ => {| Mach.tv_sec := if N.eqb p 7 then sec else sec + 1000000;
                                         Mach.tv_nsec := nsec |};
     Mach.timebase_reading := fun _ => {| Mach.numer := numer; Mach.denom := denom |} |}.

Definition zero_ts : timespec := {| tv_sec := 0; tv_nsec := 0 |}.
Definition junk_ts : timespec := {| tv_sec := 77; tv_nsec := 99 |}.


(** What a call hands back to its caller. *)
Definition status (o : outcome (Z * timespec)) : option Z :=
  match o with
  | Returns (s, _) _ => Some s
  | Undefined => None
  end.

Definition written (o : outcome (Z * timespec)) : option timespec :=
  match o with
  | Returns (_, ts) _ => Some ts
  | Undefined => None
  end.

Definition final (o : outcome (Z * timespec)) : option world :=
  match o with
  | Returns _ w => Some w
  | Undefined => None
  end.

(** The world a [getTime] call on service [c] leaves behind. *)
Definition after_read (P : Mach.platform) (c : Mach.clock_id_t) (w : world) : world :=
  let p := Mach.host_clock_port P c in
  {| timebase := timebase w;
     task := {| Mach.rights := Mach.release p (p :: Mach.rights (task w));
                Mach.trace := ((Mach.trace (task w) ++ [Mach.GetClockService c p])
                                 ++ [Mach.ClockGetTime p]) ++ [Mach.PortDeallocate p];
                Mach.host_self_calls := S (Mach.host_self_calls (task w)) |} |}.

(** Handles acquired along a trace and not given back by its end. *)
Fixpoint outstanding (held : list Mach.clock_serv_t) (t : list Mach.event)
  : list Mach.clock_serv_t :=
  match t with
  | [] => held
  | Mach.GetClockService _ p :: t' => outstanding (p :: held) t'
  | Mach.PortDeallocate p :: t' => outstanding (Mach.release p held) t'
  | _ :: t' => outstanding held t'
  end.

(** The timestamp [getResolution(Monotonic)] derives from the static. *)
Definition resolution_of (tb : Mach.mach_timebase_info_data_t) : timespec :=
  {| tv_sec := 0; tv_nsec := CInt.to_long (Mach.numer tb / Mach.denom tb) |}.

(** Timebase queries a process has made so far. *)
Definition queries (w : world) : nat := timebase_queries (Mach.trace (task w)).

Definition is_monotonic_getres (c : call) : bool :=
  match c with
  | GetRes clockid _ => clockid =? CLOCK_MONOTONIC
  | GetTime _ _ => false
  end.

Definition is_monotonic_gettime (c : call) : bool :=
  match c with
  | GetRes _ _ => false
  | GetTime clockid _ => clockid =? CLOCK_MONOTONIC
  end.

(** The timestamps the [getTime(Monotonic)] calls of a run wrote, in call
    order. *)
Fixpoint monotonic_times (cs : list call) (rs : list (Z * timespec))
  : list timespec :=
  match cs, rs with
  | c :: cs', r :: rs' =>
      if is_monotonic_gettime c
      then snd r :: monotonic_times cs' rs'
      else monotonic_times cs' rs'
  | _, _ => []
  end.

(** Pair ordering on timestamps and on the kernel's readings: seconds
    first, then nanoseconds. *)
Definition timespec_le (a b : timespec) : Prop :=
  tv_sec a < tv_sec b \/ (tv_sec a = tv_sec b /\ tv_nsec a <= tv_nsec b).

Definition reading_le (a b : Mach.mach_timespec_t) : Prop :=
  Mach.tv_sec a < Mach.tv_sec b \/
  (Mach.tv_sec a = Mach.tv_sec b /\ Mach.tv_nsec a <= Mach.tv_nsec b).

(** A platform whose clocks advance by half a second per native call (and
    stop after a thousand calls, to stay within [unsigned int]). *)
Definition ticking : Mach.platform :=
  {| Mach.host_self := 3%N;
     Mach.task_self := 5%N;
     Mach.host_clock_port := fun c => match c with
                                      | Mach.SYSTEM_CLOCK => 7%N
                                      | Mach.CALENDAR_CLOCK => 9%N
                                      end;
     Mach.clock_reading := fun _ n =>
       {| Mach.tv_sec := Z.of_nat (Nat.min n 1000) / 2;
          Mach.tv_nsec := (Z.of_nat (Nat.min n 1000) mod 2) * 500000000 |};
     Mach.timebase_reading := fun _ => {| Mach.numer := 1; Mach.denom := 1 |} |}.

(** ** Integer conversions *)

(** ** Integer conversions *)

Lemma to_long_fits (z : Z) : CInt.is_long z -> CInt.to_long z = z.
Proof.
  unfold CInt.is_long, CInt.to_long. intros Hz.
  rewrite Z.mod_small by lia. lia.
Qed.

Lemma uint_is_long (z : Z) : CInt.is_uint z -> CInt.is_long z.
Proof. unfold CInt.is_uint, CInt.is_long. lia. Qed.

Lemma int_is_long (z : Z) : CInt.is_int z -> CInt.is_long z.
Proof. unfold CInt.is_int, CInt.is_long. lia. Qed.

Lemma release_head (p : Mach.clock_serv_t) (l : list Mach.clock_serv_t) :
  Mach.release p (p :: l) = l.
Proof. simpl. now rewrite N.eqb_refl. Qed.

(** ** One call at a time *)

Section Calls.
Variable P : Mach.platform.

(** With a non-zero denominator in the static, the Monotonic case asks
    nobody, divides, and leaves through [break] to [return -1]. *)
Lemma getres_monotonic_defined (ts : timespec) (w : world) :
  Mach.denom (timebase w) <> 0 ->
  foundation_time_clock_getres P CLOCK_MONOTONIC ts w =
    Returns (-1, resolution_of (timebase w)) w.
Proof.
  intros Hnz. unfold foundation_time_clock_getres. rewrite Z.eqb_refl.
  unfold bind, get_timebase, when, divide, CInt.udiv, ret, resolution_of,
    set_tv_nsec, set_tv_sec; simpl.
  apply Z.eqb_neq in Hnz. rewrite Hnz. simpl. now rewrite Hnz.
Qed.

(** With the sentinel in the static, the query changes nothing and the
    division is by zero. *)
Lemma getres_monotonic_undefined (ts : timespec) (w : world) :
  Mach.denom (timebase w) = 0 ->
  foundation_time_clock_getres P CLOCK_MONOTONIC ts w = Undefined.
Proof.
  intros Hz. unfold foundation_time_clock_getres. rewrite Z.eqb_refl.
  unfold bind, get_timebase, when, query_timebase, bind, native, ret,
    divide, CInt.udiv; simpl.
  apply Z.eqb_eq in Hz. rewrite Hz. simpl. now rewrite Hz.
Qed.

Lemma getres_other (clockid : Z) (ts : timespec) (w : world) :
  clockid <> CLOCK_MONOTONIC ->
  foundation_time_clock_getres P clockid ts w = Returns (-1, ts) w.
Proof.
  intros Hk. unfold foundation_time_clock_getres.
  apply Z.eqb_neq in Hk. rewrite Hk.
  now destruct (clockid =? CLOCK_REALTIME).
Qed.

Lemma gettime_service (clockid : Z) (c : Mach.clock_id_t) (ts : timespec) (w : world) :
  (clockid = CLOCK_MONOTONIC /\ c = Mach.SYSTEM_CLOCK) \/
  (clockid = CLOCK_REALTIME /\ c = Mach.CALENDAR_CLOCK) ->
  foundation_time_clock_gettime P clockid ts w =
    Returns
      (0, let r := Mach.clock_reading P (Mach.host_clock_port P c)
                     (S (Mach.tick (task w))) in
          {| tv_sec := CInt.to_long (Mach.tv_sec r);
             tv_nsec := CInt.to_long (Mach.tv_nsec r) |})
      (after_read P c w).
Proof.
  intros [[-> ->] | [-> ->]];
    unfold foundation_time_clock_gettime, after_read, bind, native, ret,
      set_tv_nsec, set_tv_sec, Mach.mach_host_self, Mach.mach_task_self,
      Mach.host_get_clock_service, Mach.clock_get_time,
      Mach.mach_port_deallocate, Mach.emit, Mach.tick; simpl;
    rewrite N.eqb_refl, length_app, Nat.add_comm; reflexivity.
Qed.

Lemma gettime_other (clockid : Z) (ts : timespec) (w : world) :
  clockid <> CLOCK_MONOTONIC -> clockid <> CLOCK_REALTIME ->
  foundation_time_clock_gettime P clockid ts w = Returns (0, ts) w.
Proof.
  intros H1 H0. unfold foundation_time_clock_gettime.
  apply Z.eqb_neq in H1, H0. now rewrite H1, H0.
Qed.

End Calls.

(** ** Sequences of calls *)

(** ** Sequences of calls *)

Lemma timebase_queries_app (t u : list Mach.event) :
  timebase_queries (t ++ u) = (timebase_queries t + timebase_queries u)%nat.
Proof.
  induction t as [| e t IH]; simpl; [reflexivity |].
  destruct e; simpl; rewrite IH; reflexivity.
Qed.

Section Runs.
Variable P : Mach.platform.

Lemma queries_after_read (c : Mach.clock_id_t) (w : world) :
  queries (after_read P c w) = queries w.
Proof.
  unfold queries, after_read; simpl.
  rewrite !timebase_queries_app; simpl. lia.
Qed.

Lemma perform_getres_monotonic (ts : timespec) (w : world) (r : Z * timespec) (w' : world) :
  perform P (GetRes CLOCK_MONOTONIC ts) w = Returns r w' ->
  Mach.denom (timebase w) <> 0 /\
  w' = w /\
  r = (-1, resolution_of (timebase w)).
Proof.
  simpl. intros H.
  destruct (Z.eq_dec (Mach.denom (timebase w)) 0) as [Hz | Hnz].
  - rewrite getres_monotonic_undefined in H by assumption. discriminate.
  - rewrite getres_monotonic_defined in H by assumption.
    inversion H; subst. auto.
Qed.

(** A call that is not [getResolution(Monotonic)] neither reads nor
    writes the cache. *)
Lemma perform_other (c : call) (w : world) (r : Z * timespec) (w' : world) :
  is_monotonic_getres c = false ->
  perform P c w = Returns r w' ->
  timebase w' = timebase w /\ queries w' = queries w.
Proof.
  destruct c as [clockid ts | clockid ts]; simpl; intros Hc H.
  - apply Z.eqb_neq in Hc. rewrite getres_other in H by assumption.
    inversion H; subst. auto.
  - destruct (Z.eq_dec clockid CLOCK_MONOTONIC) as [E1 | N1].
    + rewrite (gettime_service P clockid Mach.SYSTEM_CLOCK) in H by auto.
      inversion H; subst. split; [reflexivity | apply queries_after_read].
    + destruct (Z.eq_dec clockid CLOCK_REALTIME) as [E0 | N0].
      * rewrite (gettime_service P clockid Mach.CALENDAR_CLOCK) in H by auto.
        inversion H; subst. split; [reflexivity | apply queries_after_read].
      * rewrite gettime_other in H by assumption.
        inversion H; subst. auto.
Qed.

(** No call writes the static. *)
Lemma perform_timebase (c : call) (w : world) (r : Z * timespec) (w' : world) :
  perform P c w = Returns r w' -> timebase w' = timebase w.
Proof.
  intros H. destruct (is_monotonic_getres c) eqn:Hc.
  - destruct c as [clockid ts | clockid ts]; simpl in Hc; [| discriminate].
    apply Z.eqb_eq in Hc; subst clockid.
    now apply perform_getres_monotonic in H as (_ & -> & _).
  - now apply (perform_other c w r w' Hc) in H.
Qed.

Lemma run_cons (c : call) (cs : list call) (w : world)
      (rs : list (Z * timespec)) (w' : world) :
  run P (c :: cs) w = Returns rs w' ->
  exists r w1 rs',
    perform P c w = Returns r w1 /\ run P cs w1 = Returns rs' w' /\ rs = r :: rs'.
Proof.
  simpl. unfold bind at 1.
  destruct (perform P c w) as [r w1 |] eqn:Hc; [| discriminate].
  unfold bind at 1.
  destruct (run P cs w1) as [rs' w2 |] eqn:Hr; [| discriminate].
  unfold ret. intros H. inversion H; subst.
  exists r, w1, rs'. auto.
Qed.

Lemma monotonic_resolutions_cons (c : call) (cs : list call)
      (r : Z * timespec) (rs : list (Z * timespec)) :
  monotonic_resolutions (c :: cs) (r :: rs) =
    if is_monotonic_getres c
    then r :: monotonic_resolutions cs rs
    else monotonic_resolutions cs rs.
Proof. destruct c; reflexivity. Qed.

Lemma run_timebase (cs : list call) :
  forall (w : world) (rs : list (Z * timespec)) (w' : world),
    run P cs w = Returns rs w' -> timebase w' = timebase w.
Proof.
  induction cs as [| c cs IH]; intros w rs w' H.
  - now inversion H.
  - apply run_cons in H as (r & w1 & rs' & Hc & Hrun & ->).
    rewrite (IH w1 rs' w' Hrun). exact (perform_timebase c w r w1 Hc).
Qed.

(** While the static holds the sentinel, a run that returns holds no
    [getResolution(Monotonic)] call and has asked for no timebase. *)
Lemma run_fresh (cs : list call) :
  forall (w : world) (rs : list (Z * timespec)) (w' : world),
    Mach.denom (timebase w) = 0 ->
    run P cs w = Returns rs w' ->
    Forall (fun c => is_monotonic_getres c = false) cs /\
    monotonic_resolutions cs rs = [] /\
    queries w' = queries w.
Proof.
  induction cs as [| c cs IH]; intros w rs w' Hz H.
  - inversion H; subst. simpl. auto.
  - apply run_cons in H as (r & w1 & rs' & Hc & Hrun & ->).
    assert (Hm : is_monotonic_getres c = false).
    { destruct (is_monotonic_getres c) eqn:Hm; [| reflexivity].
      destruct c as [clockid ts | clockid ts]; simpl in Hm; [| discriminate].
      apply Z.eqb_eq in Hm; subst clockid.
      apply perform_getres_monotonic in Hc as (Hnz & _). contradiction. }
    destruct (perform_other c w r w1 Hm Hc) as [Htb Hq].
    assert (Hz1 : Mach.denom (timebase w1) = 0) by (rewrite Htb; exact Hz).
    destruct (IH w1 rs' w' Hz1 Hrun) as (Hall & He & Hq').
    rewrite monotonic_resolutions_cons, Hm.
    repeat split; [constructor; assumption | exact He | now rewrite Hq', Hq].
Qed.

End Runs.

(** ** The properties of the two entry points *)

(** X8.  What does hold of the supported [getTime] calls: they return 0,
    and the nanoseconds they write are in [0, 10^9) whenever the kernel's
    are. *)
Lemma gettime_supported_in_range (P : Mach.platform) (clockid : Z)
      (c : Mach.clock_id_t) (ts : timespec) (w : world) :
  (clockid = CLOCK_MONOTONIC /\ c = Mach.SYSTEM_CLOCK) \/
  (clockid = CLOCK_REALTIME /\ c = Mach.CALENDAR_CLOCK) ->
  0 <= Mach.tv_nsec (Mach.clock_reading P (Mach.host_clock_port P c)
                       (S (Mach.tick (task w)))) < 1000000000 ->
  exists ts' w',
    foundation_time_clock_gettime P clockid ts w = Returns (0, ts') w' /\
    0 <= tv_nsec ts' < 1000000000.
Proof.
  intros Hk Hr. rewrite (gettime_service P clockid c ts w Hk).
  do 2 eexists. split; [reflexivity |]. simpl.
  rewrite to_long_fits; [assumption |]. unfold CInt.is_long. lia.
Qed.

(** C1 (the code departs from it).  [getResolution(Monotonic)] never
    returns the success status 0.  While the static holds the 0/0 it starts
    with, which is in every state a process can reach, the call divides by
    zero; and the case's only returning path leaves the [switch] through
    [break] for the final [return -1].  No other clock id fares better. *)
Theorem getres_monotonic_never_succeeds
        (P : Mach.platform) (ts : timespec) (w : world) :
  status (foundation_time_clock_getres P CLOCK_MONOTONIC ts w) =
    (if Mach.denom (timebase w) =? 0 then None else Some (-1)) /\
  status (foundation_time_clock_getres P CLOCK_MONOTONIC ts initial_world) = None /\
  (forall clockid,
      status (foundation_time_clock_getres P clockid ts w) <> Some 0).
Proof.
  assert (Hmono : status (foundation_time_clock_getres P CLOCK_MONOTONIC ts w) =
                  (if Mach.denom (timebase w) =? 0 then None else Some (-1))).
  { destruct (Mach.denom (timebase w) =? 0) eqn:E.
    - apply Z.eqb_eq in E. now rewrite getres_monotonic_undefined.
    - apply Z.eqb_neq in E. now rewrite getres_monotonic_defined. }
  split; [exact Hmono |]. split.
  - now rewrite getres_monotonic_undefined.
  - intros clockid. destruct (Z.eq_dec clockid CLOCK_MONOTONIC) as [-> | N1].
    + rewrite Hmono. destruct (Mach.denom (timebase w) =? 0); discriminate.
    + rewrite getres_other by assumption. discriminate.
Qed.

(** C2 (the code departs from it).  For a clock kind other than Monotonic
    and Realtime, [getResolution] returns -1 but [getTime] returns 0: its
    [default] case is the statement [-1;], not [return -1;]. *)
Theorem unsupported_kind_status
        (P : Mach.platform) (clockid : Z) (ts : timespec) (w : world) :
  clockid <> CLOCK_MONOTONIC -> clockid <> CLOCK_REALTIME ->
  status (foundation_time_clock_gettime P clockid ts w) = Some 0 /\
  status (foundation_time_clock_getres P clockid ts w) = Some (-1).
Proof.
  intros H1 H0.
  now rewrite gettime_other, getres_other by assumption.
Qed.

Lemma unsupported_kind_status_witness :
  status (foundation_time_clock_gettime (steady 1 1 5 6) CLOCK_PROCESS_CPUTIME_ID
            junk_ts initial_world) = Some 0 /\
  status (foundation_time_clock_getres (steady 1 1 5 6) CLOCK_PROCESS_CPUTIME_ID
            junk_ts initial_world) = Some (-1).
Proof.
  apply (unsupported_kind_status (steady 1 1 5 6) CLOCK_PROCESS_CPUTIME_ID
           junk_ts initial_world); discriminate.
Defined.

(** C3 (the code departs from it).  In a fresh process
    [getResolution(Monotonic)] writes no timestamp: line 31 passes
    [timebase] by value, the static keeps its 0/0 whatever ratio the
    platform reports, and line 33 divides 0 by 0.  So it is on a platform
    whose ratio is 1/1. *)
Theorem getres_monotonic_fresh_writes_nothing
        (P : Mach.platform) (ts : timespec) :
  foundation_time_clock_getres P CLOCK_MONOTONIC ts initial_world = Undefined /\
  Mach.timebase_reading (steady 1 1 5 6) 0 = {| Mach.numer := 1; Mach.denom := 1 |} /\
  written (foundation_time_clock_getres (steady 1 1 5 6) CLOCK_MONOTONIC ts initial_world)
    = None.
Proof.
  split; [| split].
  - now apply getres_monotonic_undefined.
  - reflexivity.
  - now rewrite getres_monotonic_undefined.
Qed.

(** C4.  [getResolution(Realtime)] returns the failure status -1, whatever
    the state of the process and the buffer passed. *)
Theorem getres_realtime_unsupported
        (P : Mach.platform) (ts : timespec) (w : world) :
  status (foundation_time_clock_getres P CLOCK_REALTIME ts w) = Some (-1).
Proof. rewrite getres_other; [reflexivity | discriminate]. Qed.

(** C5.  [getTime(Monotonic)] asks for the system clock service and
    [getTime(Realtime)] for the calendar clock service; the call reads that
    service once and the timestamp written is the reading itself, field for
    field. *)
Theorem gettime_copies_native_reading
        (P : Mach.platform) (clockid : Z) (c : Mach.clock_id_t)
        (ts : timespec) (w : world) :
  let p := Mach.host_clock_port P c in
  let r := Mach.clock_reading P p (S (Mach.tick (task w))) in
  (clockid = CLOCK_MONOTONIC /\ c = Mach.SYSTEM_CLOCK) \/
  (clockid = CLOCK_REALTIME /\ c = Mach.CALENDAR_CLOCK) ->
  CInt.is_uint (Mach.tv_sec r) -> CInt.is_int (Mach.tv_nsec r) ->
  exists w',
    foundation_time_clock_gettime P clockid ts w =
      Returns (0, {| tv_sec := Mach.tv_sec r; tv_nsec := Mach.tv_nsec r |}) w' /\
    Mach.trace (task w') =
      Mach.trace (task w)
        ++ [Mach.GetClockService c p; Mach.ClockGetTime p; Mach.PortDeallocate p].
Proof.
  intros p r Hk Hs Hn. subst p r.
  rewrite (gettime_service P clockid c ts w Hk). cbv zeta.
  rewrite !to_long_fits by auto using uint_is_long, int_is_long.
  eexists. split; [reflexivity |].
  unfold after_read; simpl. now rewrite <- !app_assoc.
Qed.

Lemma gettime_copies_native_reading_witness :
  (exists w',
     foundation_time_clock_gettime (steady 1 1 5 6) CLOCK_MONOTONIC junk_ts initial_world =
       Returns (0, {| tv_sec := 5; tv_nsec := 6 |}) w' /\
     Mach.trace (task w') =
       [Mach.GetClockService Mach.SYSTEM_CLOCK 7%N; Mach.ClockGetTime 7%N;
        Mach.PortDeallocate 7%N]) /\
  (exists w',
     foundation_time_clock_gettime (steady 1 1 5 6) CLOCK_REALTIME junk_ts initial_world =
       Returns (0, {| tv_sec := 1000005; tv_nsec := 6 |}) w' /\
     Mach.trace (task w') =
       [Mach.GetClockService Mach.CALENDAR_CLOCK 9%N; Mach.ClockGetTime 9%N;
        Mach.PortDeallocate 9%N]).
Proof.
  split.
  - apply (gettime_copies_native_reading (steady 1 1 5 6) CLOCK_MONOTONIC
             Mach.SYSTEM_CLOCK junk_ts initial_world);
      [left; split; reflexivity | |]; simpl;
      unfold CInt.is_uint, CInt.is_int; lia.
  - apply (gettime_copies_native_reading (steady 1 1 5 6) CLOCK_REALTIME
             Mach.CALENDAR_CLOCK junk_ts initial_world);
      [right; split; reflexivity | |]; simpl;
      unfold CInt.is_uint, CInt.is_int; lia.
Defined.

(** C6 (the code departs from it).  The static starts as 0/0 and no
    sequence of calls ever changes it: the platform's answer is not cached.
    From the initial state a run that returns holds no
    [getResolution(Monotonic)] call and has asked for no timebase, and two
    [getResolution(Monotonic)] calls in a row do not return. *)
Theorem timebase_never_populated (P : Mach.platform) (cs : list call) :
  timebase initial_world = {| Mach.numer := 0; Mach.denom := 0 |} /\
  (forall w rs w', run P cs w = Returns rs w' -> timebase w' = timebase w) /\
  (forall rs w',
      run P cs initial_world = Returns rs w' ->
      Forall (fun c => is_monotonic_getres c = false) cs /\
      monotonic_resolutions cs rs = [] /\
      queries w' = 0%nat) /\
  (forall ts1 ts2,
      run P [GetRes CLOCK_MONOTONIC ts1; GetRes CLOCK_MONOTONIC ts2] initial_world
        = Undefined).
Proof.
  split; [reflexivity |]. split; [| split].
  - intros w rs w'. apply run_timebase.
  - intros rs w' Hrun. exact (run_fresh P cs initial_world rs w' eq_refl Hrun).
  - intros ts1 ts2. simpl. unfold bind.
    now rewrite getres_monotonic_undefined.
Qed.

Lemma timebase_never_populated_witness :
  exists rs w',
    run (steady 125 3 5 6)
        [GetTime CLOCK_MONOTONIC zero_ts; GetRes CLOCK_REALTIME junk_ts]
        initial_world = Returns rs w' /\
    timebase w' = timebase initial_world /\
    run (steady 125 3 5 6)
        [GetRes CLOCK_MONOTONIC junk_ts; GetRes CLOCK_MONOTONIC zero_ts] initial_world
      = Undefined.
Proof.
  do 2 eexists. split; [vm_compute; reflexivity |]. split.
  - refine (proj1 (proj2 (timebase_never_populated (steady 125 3 5 6)
                            [GetTime CLOCK_MONOTONIC zero_ts; GetRes CLOCK_REALTIME junk_ts]))
                  initial_world _ _ _).
    vm_compute; reflexivity.
  - apply (timebase_never_populated (steady 125 3 5 6) []).
Defined.

(** C7.  Whatever the clock kind, [getTime] returns, and by then every
    clock-service handle it acquired has been deallocated: the native calls
    it made leave no handle outstanding and the task holds the rights it
    held before the call. *)
Theorem gettime_releases_handle
        (P : Mach.platform) (clockid : Z) (ts : timespec) (w : world) :
  exists r w' t,
    foundation_time_clock_gettime P clockid ts w = Returns r w' /\
    Mach.trace (task w') = Mach.trace (task w) ++ t /\
    outstanding [] t = [] /\
    Mach.rights (task w') = Mach.rights (task w).
Proof.
  assert (Hread : forall c k,
             (k = CLOCK_MONOTONIC /\ c = Mach.SYSTEM_CLOCK) \/
             (k = CLOCK_REALTIME /\ c = Mach.CALENDAR_CLOCK) ->
             exists r w' t,
               foundation_time_clock_gettime P k ts w = Returns r w' /\
               Mach.trace (task w') = Mach.trace (task w) ++ t /\
               outstanding [] t = [] /\
               Mach.rights (task w') = Mach.rights (task w)).
  { intros c k Hk. rewrite (gettime_service P k c ts w Hk).
    set (p := Mach.host_clock_port P c).
    exists (0, {| tv_sec := CInt.to_long (Mach.tv_sec (Mach.clock_reading P p (S (Mach.tick (task w)))));
                  tv_nsec := CInt.to_long (Mach.tv_nsec (Mach.clock_reading P p (S (Mach.tick (task w))))) |}),
           (after_read P c w),
           [Mach.GetClockService c p; Mach.ClockGetTime p; Mach.PortDeallocate p].
    split; [reflexivity |]. unfold after_read. fold p. cbn [task Mach.trace Mach.rights].
    split; [now rewrite <- !app_assoc |].
    split; [cbn [outstanding] |]; apply release_head. }
  destruct (Z.eq_dec clockid CLOCK_MONOTONIC) as [E1 | N1];
    [apply (Hread Mach.SYSTEM_CLOCK); auto |].
  destruct (Z.eq_dec clockid CLOCK_REALTIME) as [E0 | N0];
    [apply (Hread Mach.CALENDAR_CLOCK); auto |].
  exists (0, ts), w, []. rewrite gettime_other by assumption.
  rewrite app_nil_r. auto.
Qed.


(** C9.  Called with Realtime, or with any kind other than Monotonic,
    [getResolution] returns -1 and the buffer (like the rest of the state)
    is as it was on entry. *)
Theorem getres_failure_leaves_timestamp
        (P : Mach.platform) (clockid : Z) (ts : timespec) (w : world) :
  clockid <> CLOCK_MONOTONIC ->
  foundation_time_clock_getres P clockid ts w = Returns (-1, ts) w.
Proof. apply getres_other. Qed.

Lemma getres_failure_leaves_timestamp_witness :
  foundation_time_clock_getres (steady 1 1 5 6) CLOCK_REALTIME junk_ts initial_world
    = Returns (-1, junk_ts) initial_world /\
  foundation_time_clock_getres (steady 1 1 5 6) CLOCK_THREAD_CPUTIME_ID junk_ts initial_world
    = Returns (-1, junk_ts) initial_world.
Proof.
  split; apply getres_failure_leaves_timestamp; discriminate.
Defined.

(** C10.  Called with a kind other than Monotonic and Realtime, [getTime]
    writes neither field of the buffer (and makes no native call). *)
Theorem gettime_unmatched_kind_leaves_timestamp
        (P : Mach.platform) (clockid : Z) (ts : timespec) (w : world) :
  clockid <> CLOCK_MONOTONIC -> clockid <> CLOCK_REALTIME ->
  written (foundation_time_clock_gettime P clockid ts w) = Some ts /\
  final (foundation_time_clock_gettime P clockid ts w) = Some w.
Proof.
  intros H1 H0. now rewrite gettime_other by assumption.
Qed.

Lemma gettime_unmatched_kind_leaves_timestamp_witness :
  written (foundation_time_clock_gettime (steady 1 1 5 6) CLOCK_THREAD_CPUTIME_ID
             junk_ts initial_world) = Some junk_ts /\
  final (foundation_time_clock_gettime (steady 1 1 5 6) CLOCK_THREAD_CPUTIME_ID
           junk_ts initial_world) = Some initial_world.
Proof.
  apply (gettime_unmatched_kind_leaves_timestamp (steady 1 1 5 6)
           CLOCK_THREAD_CPUTIME_ID junk_ts initial_world); discriminate.
Defined.

(** ** Further properties of the two entry points *)

(** ** Further properties of the two entry points *)

Lemma outstanding_app (held : list Mach.clock_serv_t) (t u : list Mach.event) :
  outstanding held (t ++ u) = outstanding (outstanding held t) u.
Proof.
  revert held. induction t as [| e t IH]; intros held; [reflexivity |].
  destruct e; simpl; apply IH.
Qed.

(** What one call adds to the task: native calls that give back every
    handle they take, and no right. *)
Lemma perform_balanced (P : Mach.platform) (c : call) (w : world)
      (r : Z * timespec) (w1 : world) :
  perform P c w = Returns r w1 ->
  Mach.rights (task w1) = Mach.rights (task w) /\
  exists t,
    Mach.trace (task w1) = Mach.trace (task w) ++ t /\
    forall held, outstanding held t = held.
Proof.
  assert (Hread : forall k, Mach.rights (task (after_read P k w)) = Mach.rights (task w) /\
            exists t, Mach.trace (task (after_read P k w)) = Mach.trace (task w) ++ t /\
                      forall held, outstanding held t = held).
  { intros k. unfold after_read; cbn [task Mach.rights Mach.trace].
    split; [apply release_head |].
    exists [Mach.GetClockService k (Mach.host_clock_port P k);
            Mach.ClockGetTime (Mach.host_clock_port P k);
            Mach.PortDeallocate (Mach.host_clock_port P k)].
    split; [now rewrite <- !app_assoc |].
    intros held. cbn [outstanding]. apply release_head. }
  assert (Hsame : Mach.rights (task w) = Mach.rights (task w) /\
            exists t, Mach.trace (task w) = Mach.trace (task w) ++ t /\
                      forall held, outstanding held t = held).
  { split; [reflexivity |]. exists []. now rewrite app_nil_r. }
  destruct c as [clockid ts | clockid ts]; simpl; intros H.
  - destruct (Z.eq_dec clockid CLOCK_MONOTONIC) as [-> | N1].
    + apply (perform_getres_monotonic P) in H as (_ & -> & _). exact Hsame.
    + rewrite getres_other in H by assumption. inversion H; subst. exact Hsame.
  - destruct (Z.eq_dec clockid CLOCK_MONOTONIC) as [E1 | N1].
    + rewrite (gettime_service P clockid Mach.SYSTEM_CLOCK) in H by auto.
      inversion H; subst. apply Hread.
    + destruct (Z.eq_dec clockid CLOCK_REALTIME) as [E0 | N0].
      * rewrite (gettime_service P clockid Mach.CALENDAR_CLOCK) in H by auto.
        inversion H; subst. apply Hread.
      * rewrite gettime_other in H by assumption. inversion H; subst. exact Hsame.
Qed.

Lemma perform_tick (P : Mach.platform) (c : call) (w : world)
      (r : Z * timespec) (w1 : world) :
  perform P c w = Returns r w1 ->
  (Mach.tick (task w) <= Mach.tick (task w1))%nat.
Proof.
  intros H. apply perform_balanced in H as (_ & t & Ht & _).
  unfold Mach.tick. rewrite Ht, length_app. lia.
Qed.

Lemma monotonic_times_cons (c : call) (cs : list call)
      (r : Z * timespec) (rs : list (Z * timespec)) :
  monotonic_times (c :: cs) (r :: rs) =
    if is_monotonic_gettime c
    then snd r :: monotonic_times cs rs
    else monotonic_times cs rs.
Proof. reflexivity. Qed.

Section Ordering.
Variable P : Mach.platform.

Let p : Mach.clock_serv_t := Mach.host_clock_port P Mach.SYSTEM_CLOCK.

Hypothesis well_typed :
  forall n, CInt.is_uint (Mach.tv_sec (Mach.clock_reading P p n)) /\
            CInt.is_int (Mach.tv_nsec (Mach.clock_reading P p n)).

(** What a [getTime(Monotonic)] call writes is a reading of the system
    clock taken after the call began. *)
Lemma perform_time (ts : timespec) (w : world) (r : Z * timespec) (w1 : world) :
  perform P (GetTime CLOCK_MONOTONIC ts) w = Returns r w1 ->
  tv_sec (snd r) = Mach.tv_sec (Mach.clock_reading P p (S (Mach.tick (task w)))) /\
  tv_nsec (snd r) = Mach.tv_nsec (Mach.clock_reading P p (S (Mach.tick (task w)))).
Proof.
  simpl. rewrite (gettime_service P CLOCK_MONOTONIC Mach.SYSTEM_CLOCK) by auto.
  intros H. inversion H; subst. cbv zeta. cbn [snd tv_sec tv_nsec]. fold p.
  destruct (well_typed (S (Mach.tick (task w)))) as [Hs Hn].
  rewrite !to_long_fits by auto using uint_is_long, int_is_long. auto.
Qed.

Lemma run_times (cs : list call) :
  forall (w : world) (rs : list (Z * timespec)) (w' : world),
    run P cs w = Returns rs w' ->
    Forall (fun t => exists n, (Mach.tick (task w) < n)%nat /\
                               tv_sec t = Mach.tv_sec (Mach.clock_reading P p n) /\
                               tv_nsec t = Mach.tv_nsec (Mach.clock_reading P p n))
           (monotonic_times cs rs).
Proof.
  induction cs as [| c cs IH]; intros w rs w' H.
  - inversion H; subst. constructor.
  - apply run_cons in H as (r & w1 & rs' & Hc & Hrun & ->).
    rewrite monotonic_times_cons.
    assert (Htail : Forall (fun t => exists n, (Mach.tick (task w) < n)%nat /\
                               tv_sec t = Mach.tv_sec (Mach.clock_reading P p n) /\
                               tv_nsec t = Mach.tv_nsec (Mach.clock_reading P p n))
                           (monotonic_times cs rs')).
    { eapply Forall_impl; [| exact (IH w1 rs' w' Hrun)].
      intros t (n & Hn & Ht). exists n. split; [| exact Ht].
      pose proof (perform_tick P c w r w1 Hc). lia. }
    destruct (is_monotonic_gettime c) eqn:Hm; [| exact Htail].
    constructor; [| exact Htail].
    destruct c as [clockid ts | clockid ts]; simpl in Hm; [discriminate |].
    apply Z.eqb_eq in Hm; subst clockid.
    exists (S (Mach.tick (task w))). split; [lia |].
    exact (perform_time ts w r w1 Hc).
Qed.

End Ordering.

(** X1.  [getTime] returns for every clock id and every state, always with
    status 0; it leaves the cached ratio alone and asks the platform for no
    timebase. *)
Theorem gettime_always_succeeds_and_spares_timebase
        (P : Mach.platform) (clockid : Z) (ts : timespec) (w : world) :
  exists ts' w',
    foundation_time_clock_gettime P clockid ts w = Returns (0, ts') w' /\
    timebase w' = timebase w /\
    queries w' = queries w.
Proof.
  destruct (Z.eq_dec clockid CLOCK_MONOTONIC) as [E1 | N1].
  - rewrite (gettime_service P clockid Mach.SYSTEM_CLOCK) by auto.
    do 2 eexists. split; [reflexivity |].
    split; [reflexivity | apply queries_after_read].
  - destruct (Z.eq_dec clockid CLOCK_REALTIME) as [E0 | N0].
    + rewrite (gettime_service P clockid Mach.CALENDAR_CLOCK) by auto.
      do 2 eexists. split; [reflexivity |].
      split; [reflexivity | apply queries_after_read].
    + rewrite gettime_other by assumption. eauto.
Qed.

(** X2.  Whatever the clock id, a [getResolution] call that returns has
    status -1, never 0; it takes no clock-service handle, and the only
    native call it can make is one timebase query. *)
Theorem getres_never_succeeds_and_takes_no_handle
        (P : Mach.platform) (clockid : Z) (ts : timespec) (w : world)
        (r : Z * timespec) (w' : world) :
  foundation_time_clock_getres P clockid ts w = Returns r w' ->
  fst r = -1 /\
  Mach.rights (task w') = Mach.rights (task w) /\
  (Mach.trace (task w') = Mach.trace (task w) \/
   Mach.trace (task w') = Mach.trace (task w) ++ [Mach.TimebaseInfo]).
Proof.
  intros H. destruct (Z.eq_dec clockid CLOCK_MONOTONIC) as [-> | N1].
  - apply (perform_getres_monotonic P ts w r w') in H as (_ & -> & ->). auto.
  - rewrite getres_other in H by assumption. inversion H; subst. auto.
Qed.

Lemma getres_never_succeeds_and_takes_no_handle_witness :
  fst (-1, junk_ts) = -1 /\
  Mach.rights (task initial_world) = Mach.rights (task initial_world) /\
  (Mach.trace (task initial_world) = Mach.trace (task initial_world) \/
   Mach.trace (task initial_world) =
     Mach.trace (task initial_world) ++ [Mach.TimebaseInfo]).
Proof.
  apply (getres_never_succeeds_and_takes_no_handle (steady 125 3 5 6)
           CLOCK_REALTIME junk_ts initial_world).
  reflexivity.
Defined.

(** X3.  On the three paths that write, the whole buffer is overwritten:
    the outcome of the call does not depend on what the buffer held. *)
Theorem written_paths_ignore_buffer
        (P : Mach.platform) (ts1 ts2 : timespec) (w : world) :
  foundation_time_clock_getres P CLOCK_MONOTONIC ts1 w =
    foundation_time_clock_getres P CLOCK_MONOTONIC ts2 w /\
  foundation_time_clock_gettime P CLOCK_MONOTONIC ts1 w =
    foundation_time_clock_gettime P CLOCK_MONOTONIC ts2 w /\
  foundation_time_clock_gettime P CLOCK_REALTIME ts1 w =
    foundation_time_clock_gettime P CLOCK_REALTIME ts2 w.
Proof.
  split; [| split].
  - destruct (Z.eq_dec (Mach.denom (timebase w)) 0) as [Hz | Hnz].
    + now rewrite !getres_monotonic_undefined.
    + now rewrite !getres_monotonic_defined.
  - now rewrite !(gettime_service P CLOCK_MONOTONIC Mach.SYSTEM_CLOCK) by auto.
  - now rewrite !(gettime_service P CLOCK_REALTIME Mach.CALENDAR_CLOCK) by auto.
Qed.

(** X5.  No sequence of calls leaks a clock-service handle: when a run
    returns, it has one result per call, the task holds exactly the rights
    it held before, and the native calls the run added leave no handle
    outstanding. *)
Theorem run_leaks_no_handle
        (P : Mach.platform) (cs : list call) (w : world)
        (rs : list (Z * timespec)) (w' : world) :
  run P cs w = Returns rs w' ->
  length rs = length cs /\
  Mach.rights (task w') = Mach.rights (task w) /\
  exists t,
    Mach.trace (task w') = Mach.trace (task w) ++ t /\
    outstanding [] t = [].
Proof.
  intros H.
  enough (G : length rs = length cs /\
              Mach.rights (task w') = Mach.rights (task w) /\
              exists t, Mach.trace (task w') = Mach.trace (task w) ++ t /\
                        forall held, outstanding held t = held).
  { destruct G as (Hl & Hr & t & Ht & Ho). eauto. }
  revert w rs w' H. induction cs as [| c cs IH]; intros w rs w' H.
  - inversion H; subst. repeat split. exists []. now rewrite app_nil_r.
  - apply run_cons in H as (r & w1 & rs' & Hc & Hrun & ->).
    destruct (perform_balanced P c w r w1 Hc) as (Hr1 & t1 & Ht1 & Ho1).
    destruct (IH w1 rs' w' Hrun) as (Hl & Hr2 & t2 & Ht2 & Ho2).
    split; [simpl; now rewrite Hl |]. split; [now rewrite Hr2 |].
    exists (t1 ++ t2). split.
    + now rewrite Ht2, Ht1, app_assoc.
    + intros held. now rewrite outstanding_app, Ho1, Ho2.
Qed.

Lemma run_leaks_no_handle_witness :
  exists rs w',
    run (steady 125 3 5 6)
        [GetTime CLOCK_REALTIME junk_ts; GetRes CLOCK_REALTIME junk_ts;
         GetTime CLOCK_MONOTONIC zero_ts; GetTime CLOCK_THREAD_CPUTIME_ID zero_ts]
        initial_world = Returns rs w' /\
    length rs = 4%nat /\
    Mach.rights (task w') = [] /\
    exists t, Mach.trace (task w') = [] ++ t /\ outstanding [] t = [].
Proof.
  do 2 eexists. split; [vm_compute; reflexivity |].
  apply (run_leaks_no_handle (steady 125 3 5 6)
           [GetTime CLOCK_REALTIME junk_ts; GetRes CLOCK_REALTIME junk_ts;
            GetTime CLOCK_MONOTONIC zero_ts; GetTime CLOCK_THREAD_CPUTIME_ID zero_ts]
           initial_world).
  vm_compute; reflexivity.
Defined.

(** X7.  [getTime(Monotonic)] adds nothing to the system clock's order: if
    the clock's readings fit their C types and never go back from one native
    call to a later one, the timestamps the [getTime(Monotonic)] calls of a
    run write are in non-decreasing pair order, whatever other calls come
    in between. *)
Theorem monotonic_times_ordered
        (P : Mach.platform) (cs : list call) (w : world)
        (rs : list (Z * timespec)) (w' : world) :
  let p := Mach.host_clock_port P Mach.SYSTEM_CLOCK in
  (forall n, CInt.is_uint (Mach.tv_sec (Mach.clock_reading P p n)) /\
             CInt.is_int (Mach.tv_nsec (Mach.clock_reading P p n))) ->
  (forall n m, (n <= m)%nat ->
               reading_le (Mach.clock_reading P p n) (Mach.clock_reading P p m)) ->
  run P cs w = Returns rs w' ->
  StronglySorted timespec_le (monotonic_times cs rs).
Proof.
  intros p Hwt Hmono. revert w rs w'.
  induction cs as [| c cs IH]; intros w rs w' H.
  - inversion H; subst. constructor.
  - apply run_cons in H as (r & w1 & rs' & Hc & Hrun & ->).
    rewrite monotonic_times_cons.
    destruct (is_monotonic_gettime c) eqn:Hm; [| exact (IH w1 rs' w' Hrun)].
    constructor; [exact (IH w1 rs' w' Hrun) |].
    destruct c as [clockid ts | clockid ts]; simpl in Hm; [discriminate |].
    apply Z.eqb_eq in Hm; subst clockid.
    destruct (perform_time P Hwt ts w r w1 Hc) as [Hs Hn].
    pose proof (perform_tick P _ w r w1 Hc) as Htick.
    eapply Forall_impl; [| exact (run_times P Hwt cs w1 rs' w' Hrun)].
    intros t (n & Hlt & Hts & Htn). unfold timespec_le.
    rewrite Hs, Hn, Hts, Htn.
    apply (Hmono (S (Mach.tick (task w))) n).
    pose proof (perform_balanced P _ w r w1 Hc) as (_ & u & Hu & _).
    assert (Hlen : (Mach.tick (task w1) = Mach.tick (task w) + length u)%nat)
      by (unfold Mach.tick; now rewrite Hu, length_app).
    assert (Hu3 : (1 <= length u)%nat).
    { simpl in Hc.
      rewrite (gettime_service P CLOCK_MONOTONIC Mach.SYSTEM_CLOCK) in Hc by auto.
      inversion Hc; subst w1. unfold after_read in Hu; cbn [task Mach.trace] in Hu.
      rewrite <- !app_assoc in Hu. apply app_inv_head in Hu. subst u. simpl. lia. }
    lia.
Qed.

Lemma monotonic_times_ordered_witness :
  exists rs w',
    run ticking
        [GetTime CLOCK_MONOTONIC junk_ts; GetRes CLOCK_REALTIME junk_ts;
         GetTime CLOCK_REALTIME junk_ts; GetTime CLOCK_MONOTONIC zero_ts]
        initial_world = Returns rs w' /\
    monotonic_times
      [GetTime CLOCK_MONOTONIC junk_ts; GetRes CLOCK_REALTIME junk_ts;
       GetTime CLOCK_REALTIME junk_ts; GetTime CLOCK_MONOTONIC zero_ts] rs
      = [{| tv_sec := 0; tv_nsec := 500000000 |}; {| tv_sec := 3; tv_nsec := 500000000 |}] /\
    StronglySorted timespec_le
      (monotonic_times
         [GetTime CLOCK_MONOTONIC junk_ts; GetRes CLOCK_REALTIME junk_ts;
          GetTime CLOCK_REALTIME junk_ts; GetTime CLOCK_MONOTONIC zero_ts] rs).
Proof.
  do 2 eexists. split; [vm_compute; reflexivity |]. split; [vm_compute; reflexivity |].
  eapply (monotonic_times_ordered ticking
            [GetTime CLOCK_MONOTONIC junk_ts; GetRes CLOCK_REALTIME junk_ts;
             GetTime CLOCK_REALTIME junk_ts; GetTime CLOCK_MONOTONIC zero_ts]
            initial_world).
  - intros n. simpl. unfold CInt.is_uint, CInt.is_int.
    pose proof (Z.mod_pos_bound (Z.of_nat (Nat.min n 1000)) 2 ltac:(lia)).
    split; [split; [apply Z.div_pos; lia | apply Z.div_lt_upper_bound; lia] | lia].
  - intros n m Hnm. unfold reading_le; simpl.
    assert (Hle : Z.of_nat (Nat.min n 1000) <= Z.of_nat (Nat.min m 1000)) by lia.
    pose proof (Z.div_mod (Z.of_nat (Nat.min n 1000)) 2 ltac:(lia)).
    pose proof (Z.div_mod (Z.of_nat (Nat.min m 1000)) 2 ltac:(lia)).
    pose proof (Z.mod_pos_bound (Z.of_nat (Nat.min n 1000)) 2 ltac:(lia)).
    pose proof (Z.mod_pos_bound (Z.of_nat (Nat.min m 1000)) 2 ltac:(lia)).
    lia.
  - vm_compute; reflexivity.
Defined.

(** The supported [getTime] calls at the two ends of the nanosecond
    range. *)
Lemma gettime_supported_in_range_witness :
  (exists ts' w',
     foundation_time_clock_gettime (steady 1 1 5 999999999) CLOCK_MONOTONIC
       junk_ts initial_world = Returns (0, ts') w' /\
     0 <= tv_nsec ts' < 1000000000) /\
  (exists ts' w',
     foundation_time_clock_gettime (steady 1 1 5 0) CLOCK_REALTIME
       junk_ts initial_world = Returns (0, ts') w' /\
     0 <= tv_nsec ts' < 1000000000).
Proof.
  split.
  - apply (gettime_supported_in_range (steady 1 1 5 999999999) CLOCK_MONOTONIC
             Mach.SYSTEM_CLOCK junk_ts initial_world);
      [left; split; reflexivity | simpl; lia].
  - apply (gettime_supported_in_range (steady 1 1 5 0) CLOCK_REALTIME
             Mach.CALENDAR_CLOCK junk_ts initial_world);
      [right; split; reflexivity | simpl; lia].
Defined.
